(** * virtnbdbackup: export-server orchestration and signal cleanup

    A shallow embedding of [libvirtnbdbackup/qemu/util.py] (class [util],
    the wrapper around the qemu executables) and of
    [libvirtnbdbackup/sighandle.py] (the signal handlers [Backup.catch] and
    [Map.catch]).

    Python code that touches the outside world (file system, loggers,
    child processes, exceptions) is written in a small state-and-exception
    monad [M] over an explicit [world]. *)

From Stdlib Require Import ZArith String Ascii List Lia DecimalString.
From stdpp Require Import base decidable gmap strings list.

Local Open Scope Z_scope.
Local Open Scope string_scope.
Local Open Scope list_scope.

(** ** Python values *)

(** [str(n)] / [f"{n}"] / ["%s" % n] for an [int]. *)
Definition str_of_int (n : Z) : string := NilZero.string_of_int (Z.to_int n).

(** [f"{x}"] and ["%s" % x] for an optional string: [None] prints as the
    text [None]. *)
Definition str_of_opt (o : option string) : string :=
  match o with
  | Some s => s
  | None => "None"
  end.

(** [" ".join(cmd)] *)
Definition join (cmd : list string) : string := String.concat " " cmd.

(** ** The world the program runs in *)

Inductive level := DEBUG | INFO | ERROR.

(** Python exceptions. *)
Inductive exn :=
  | FileNotFoundError (path : string)
  | TypeError
  | SystemExit (code : Z)
  | CommandError (exitCode : Z) (stderrText : string)
  | sshError (msg : string)
  | OtherError (msg : string).

(** What the operating system answers to one spawn request. *)
Record spawned := {
  exit_code : Z;
  child_pid : Z;
  stderr_text : string;
}.

Record world := {
  files : gset string;              (* path strings that name an existing entry *)
  procs : gset Z;                   (* live process ids *)
  logged : list (level * string);   (* log records, oldest first *)
  tmp_rand : nat -> string;         (* random infixes of the temp-file allocator *)
  tmp_used : nat;                   (* how many of them were consumed *)
  os_spawn : nat -> list string -> spawned;  (* answer to the k-th spawn *)
  spawn_log : list (list string);   (* argv of every spawn so far, oldest first *)
  os_refuses : string -> option exn;
    (* the error with which the system refuses to remove an existing path:
       a directory, a path the process may not unlink *)
  same_file : string -> string -> bool;
    (* the two path strings are spellings of one directory entry *)
}.

Definition set_files (f : gset string) (w : world) : world :=
  {| files := f; procs := procs w; logged := logged w; tmp_rand := tmp_rand w;
     tmp_used := tmp_used w; os_spawn := os_spawn w; spawn_log := spawn_log w;
     os_refuses := os_refuses w; same_file := same_file w |}.

Definition set_procs (p : gset Z) (w : world) : world :=
  {| files := files w; procs := p; logged := logged w; tmp_rand := tmp_rand w;
     tmp_used := tmp_used w; os_spawn := os_spawn w; spawn_log := spawn_log w;
     os_refuses := os_refuses w; same_file := same_file w |}.

Definition set_logged (l : list (level * string)) (w : world) : world :=
  {| files := files w; procs := procs w; logged := l; tmp_rand := tmp_rand w;
     tmp_used := tmp_used w; os_spawn := os_spawn w; spawn_log := spawn_log w;
     os_refuses := os_refuses w; same_file := same_file w |}.

Definition set_tmp_used (n : nat) (w : world) : world :=
  {| files := files w; procs := procs w; logged := logged w; tmp_rand := tmp_rand w;
     tmp_used := n; os_spawn := os_spawn w; spawn_log := spawn_log w;
     os_refuses := os_refuses w; same_file := same_file w |}.

Definition set_spawn_log (l : list (list string)) (w : world) : world :=
  {| files := files w; procs := procs w; logged := logged w; tmp_rand := tmp_rand w;
     tmp_used := tmp_used w; os_spawn := os_spawn w; spawn_log := l;
     os_refuses := os_refuses w; same_file := same_file w |}.

(** ** Exceptions and the monad *)

Inductive outcome (A : Type) :=
  | Ret (a : A)
  | Raise (e : exn).
Arguments Ret {A} a.
Arguments Raise {A} e.

Definition M (A : Type) : Type := world -> outcome A * world.

Definition ret {A} (a : A) : M A := fun w => (Ret a, w).

Definition raise {A} (e : exn) : M A := fun w => (Raise e, w).

Definition bind {A B} (m : M A) (k : A -> M B) : M B :=
  fun w =>
    match m w with
    | (Ret a, w') => k a w'
    | (Raise e, w') => (Raise e, w')
    end.

Notation "'let*' x ':=' m 'in' k" := (bind m (fun x => k))
  (at level 10, x name, m at level 100, k at level 200).
Notation "'call' m 'in' k" := (bind m (fun _ => k))
  (at level 10, m at level 100, k at level 200).

(** [try: body except sshError: handler]; inside the handler a bare
    [raise] re-raises the exception that was caught, so the handler gets
    it as an argument. *)
Definition try_except_sshError {A} (body : M A) (handler : exn -> M A) : M A :=
  fun w =>
    match body w with
    | (Raise (sshError msg), w') => handler (sshError msg) w'
    | r => r
    end.

(** ** Python library calls *)

Definition log_at (lv : level) (msg : string) : M unit :=
  fun w => (Ret tt, set_logged (logged w ++ [(lv, msg)]) w).

Definition log_info := log_at INFO.
Definition log_error := log_at ERROR.

(** [os.remove(path)]: [FileNotFoundError] when the path names nothing;
    the system's own error when it refuses to remove what the path names
    (a directory, a path the process may not unlink); otherwise the
    entry goes away, and with it every other spelling of the same
    path. *)
Definition os_remove (path : string) : M unit :=
  fun w =>
    if decide (path ∈ files w)
    then match os_refuses w path with
         | Some e => (Raise e, w)
         | None =>
             (Ret tt,
              set_files
                (filter (fun q => same_file w path q = false) (files w ∖ {[path]})) w)
         end
    else (Raise (FileNotFoundError path), w).

(** [sys.exit(code)] raises [SystemExit]. *)
Definition sys_exit {A} (code : Z) : M A := raise (SystemExit code).

(** [tempfile.NamedTemporaryFile(delete=False, prefix=..., suffix=...)]
    entered and left by [with]: the file is created under the temp
    directory and stays; its name is prefix, random infix, suffix. *)
Definition NamedTemporaryFile (prefix suffix : string) : M string :=
  fun w =>
    let name := "/tmp/" +:+ prefix +:+ tmp_rand w (tmp_used w) +:+ suffix in
    (Ret name, set_tmp_used (S (tmp_used w)) (set_files ({[name]} ∪ files w) w)).

(** ** Types of the collaborators *)

(** Modelled from the spec: [processInfo] (module [processinfo] is not
    among the sources) is the spec's ProcessHandle: a process id, an
    optional pid-file path and an optional log-file path. *)
Record processInfo := {
  pid : Z;
  pidFile : option string;
  logFile : option string;
}.

(** The remote executor handed in as [args.sshClient] /  [sshClient]:
    [run(cmd, pidFile, logFile)], the last two optional. *)
Record sshClientT := {
  ssh_run : string -> option string -> option string -> M processInfo;
}.

(** [libvirt.virDomain], opaque here. *)
Inductive virDomain := Domain (name : string).

(** [virt.client], of which the handlers use [stopBackup] only. *)
Record virt_client := {
  stopBackup : virDomain -> M bool;
}.

(** [virt.client.DomainDisk], the fields the builders read. *)
Record DomainDisk := {
  disk_format : string;
  disk_path : string;
}.

(** The [argparse.Namespace] with the options the code reads. *)
Record Namespace := {
  offline : bool;
  nbd_port : Z;
  nbd_ip : string;
  tls : bool;
  tls_cert : string;
  sshClient : sshClientT;
  verbose : bool;
  listen_address : string;
  listen_port : Z;
  blocksize : Z;
  threads : Z;
}.

(** The temporary block-map file object: only its [name] is read. *)
Record blockMapFile := {
  name : string;
}.

(** The module-level functions of this repository that the two source
    files call and that live in other modules: [command.run(cmdLine,
    pidFile=..., toPipe=...)] and [common.killProc(pid)]. *)
Class Collaborators := {
  command_run : list string -> option string -> bool -> M processInfo;
  killProc : Z -> M bool;
}.

(** * [qemu/util.py]: class [util] *)

(** [util(exportName)] *)
Record util := {
  exportName : string;
}.

Module Util.
Section WithCollaborators.
Context `{Collaborators}.

(** [util.create]: the argument list, then local or remote execution. *)
Definition create_cmd (targetFile : string) (fileSize : Z) (diskFormat : string)
    (qcowOptions : list string) : list string :=
  let cmd :=
    [ "qemu-img";
      "create";
      "-f";
      diskFormat;
      targetFile;
      "-o";
      "size=" +:+ str_of_int fileSize ] in
  match qcowOptions with
  | [] => cmd
  | _ :: _ => cmd ++ qcowOptions
  end.

Definition create (targetFile : string) (fileSize : Z) (diskFormat : string)
    (qcowOptions : list string) (sshClient : option sshClientT) : M processInfo :=
  let cmd := create_cmd targetFile fileSize diskFormat qcowOptions in
  match sshClient with
  | None => command_run cmd None false
  | Some c => ssh_run c (join cmd) None None
  end.

(** [util.info] *)
Definition info_cmd (targetFile : string) : list string :=
  [ "qemu-img"; "info"; targetFile; "--output"; "json"; "--force-share" ].

Definition info (self : util) (targetFile : string)
    (sshClient : option sshClientT) : M processInfo :=
  let cmd := info_cmd targetFile in
  match sshClient with
  | None => command_run cmd None true
  | Some c => ssh_run c (join cmd) None None
  end.

(** [util.startRestoreNbdServer] *)
Definition startRestoreNbdServer_cmd (self : util) (targetFile socketFile : string)
    : list string :=
  [ "qemu-nbd";
    "--discard=unmap";
    "--format=qcow2";
    "-x";
    exportName self;
    targetFile;
    "-k";
    socketFile;
    "--fork" ].

Definition startRestoreNbdServer (self : util) (targetFile socketFile : string)
    : M processInfo :=
  command_run (startRestoreNbdServer_cmd self targetFile socketFile) None false.

(** [util._gt]: [delete] keeps its default [False]. *)
Definition _gt (prefix suffix : string) : M string :=
  NamedTemporaryFile prefix suffix.

(** [util._addTls] extends the caller's list in place; the caller goes on
    with the extended list. *)
Definition _addTls (cmd : list string) (certpath : string) : list string :=
  cmd ++
  [ "--object";
    "tls-creds-x509,id=tls0,endpoint=server,dir=" +:+ certpath +:+ ",verify-peer=false";
    "--tls-creds tls0" ].

(** [util.startRemoteRestoreNbdServer] *)
Definition startRemoteRestoreNbdServer_cmd (self : util) (args : Namespace)
    (targetFile pidFile logFile : string) : list string :=
  let cmd :=
    [ "qemu-nbd";
      "--discard=unmap";
      "--format=qcow2";
      "-x";
      exportName self;
      targetFile;
      "-p";
      str_of_int (nbd_port args);
      "--pid-file";
      pidFile;
      "--fork" ] in
  let cmd := if tls args then _addTls cmd (tls_cert args) else cmd in
  cmd ++ [ "> " +:+ logFile +:+ " 2>&1" ].

Definition startRemoteRestoreNbdServer (self : util) (args : Namespace)
    (targetFile : string) : M processInfo :=
  let* pidFile := _gt "qemu-nbd-restore" ".pid" in
  let* logFile := _gt "qemu-nbd-restore" ".log" in
  let cmd := startRemoteRestoreNbdServer_cmd self args targetFile pidFile logFile in
  try_except_sshError
    (ssh_run (sshClient args) (join cmd) (Some pidFile) (Some logFile))
    (fun e =>
       call log_error ("Executing command failed: check [" +:+ logFile +:+ "] for errors.") in
       raise e).

(** [util.startNbdkitProcess] *)
Definition startNbdkitProcess_cmd (self : util) (args : Namespace)
    (nbdkitModule blockMap fullImage pidFile : string) : list string :=
  let debug := if verbose args then "1" else "0" in
  [ "nbdkit";
    "--pidfile";
    pidFile;
    "-i";
    listen_address args;
    "-p";
    str_of_int (listen_port args);
    "-e";
    exportName self;
    "--filter=blocksize";
    "--filter=cow";
    "-v";
    "python";
    nbdkitModule;
    "maxlen=" +:+ str_of_int (blocksize args);
    "blockmap=" +:+ blockMap;
    "disk=" +:+ fullImage;
    "debug=" +:+ debug;
    "-t";
    str_of_int (threads args) ].

Definition startNbdkitProcess (self : util) (args : Namespace)
    (nbdkitModule blockMap fullImage : string) : M processInfo :=
  let* pidFile := _gt "nbdkit" ".pid" in
  command_run (startNbdkitProcess_cmd self args nbdkitModule blockMap fullImage pidFile)
    (Some pidFile) false.

(** [util.startBackupNbdServer] *)
Definition startBackupNbdServer_cmd (self : util)
    (diskFormat diskFile socketFile bitMap : string) : list string :=
  let bitmapOpt := if decide (bitMap ≠ "") then "--bitmap=" +:+ bitMap else "--" in
  let pidFile := socketFile +:+ ".pid" in
  [ "qemu-nbd";
    "-r";
    "--format=" +:+ diskFormat;
    "-x";
    exportName self;
    diskFile;
    "-k";
    socketFile;
    "-t";
    "-e 2";
    "--fork";
    "--detect-zeroes=on";
    "--pid-file=" +:+ pidFile;
    bitmapOpt ].

Definition startBackupNbdServer (self : util)
    (diskFormat diskFile socketFile bitMap : string) : M processInfo :=
  let pidFile := socketFile +:+ ".pid" in
  command_run (startBackupNbdServer_cmd self diskFormat diskFile socketFile bitMap)
    (Some pidFile) false.

(** [util.startRemoteBackupNbdServer] *)
Definition startRemoteBackupNbdServer_cmd (self : util) (args : Namespace)
    (disk : DomainDisk) (bitMap : string) (port : Z) (pidFile logFile : string)
    : list string :=
  let cmd :=
    [ "qemu-nbd";
      "-r";
      "--format=" +:+ disk_format disk;
      "-x";
      exportName self;
      disk_path disk;
      "-p";
      str_of_int port;
      "--pid-file";
      pidFile;
      "--fork" ] in
  let cmd := if decide (nbd_ip args ≠ "") then cmd ++ [ "-b"; nbd_ip args ] else cmd in
  let cmd := if decide (bitMap ≠ "") then cmd ++ [ "--bitmap=" +:+ bitMap ] else cmd in
  let cmd := if tls args then _addTls cmd (tls_cert args) else cmd in
  cmd ++ [ "> " +:+ logFile +:+ " 2>&1" ].

Definition startRemoteBackupNbdServer (self : util) (args : Namespace)
    (disk : DomainDisk) (bitMap : string) (port : Z) : M processInfo :=
  let* pidFile := _gt "qemu-nbd-backup" ".pid" in
  let* logFile := _gt "qemu-nbd-backup" ".log" in
  let cmd := startRemoteBackupNbdServer_cmd self args disk bitMap port pidFile logFile in
  try_except_sshError
    (ssh_run (sshClient args) (join cmd) (Some pidFile) (Some logFile))
    (fun e =>
       call log_error ("Executing command failed: check [" +:+ logFile +:+ "] for errors.") in
       raise e).

(** [util.disconnect] *)
Definition disconnect_cmd (device : string) : list string :=
  [ "qemu-nbd"; "-d"; device ].

Definition disconnect (self : util) (device : string) : M processInfo :=
  call log_info ("Disconnecting device [" +:+ device +:+ "]") in
  command_run (disconnect_cmd device) None false.

End WithCollaborators.
End Util.

(** * [sighandle.py] *)

(** [os.remove(p)] where [p] may be [None]: Python refuses a [None] path
    with [TypeError]. *)
Definition os_remove_path (p : option string) : M unit :=
  match p with
  | Some path => os_remove path
  | None => raise TypeError
  end.

Module Backup.

(** [Backup.catch(args, domObj, virtClient, log, signum, _)] *)
Definition catch (args : Namespace) (domObj : virDomain) (virtClient : virt_client)
    (signum : Z) : M unit :=
  call log_error ("Caught signal: " +:+ str_of_int signum) in
  call log_error "Cleanup: Stopping backup job" in
  call (if negb (offline args)
        then (let* _ := stopBackup virtClient domObj in ret tt)
        else ret tt) in
  sys_exit 1.

End Backup.

Module Map.
Section WithCollaborators.
Context `{Collaborators}.

(** [Map.catch(nbdkitProcess, device, blockMap, log, signum, _)] *)
Definition catch (nbdkitProcess : processInfo) (device : string)
    (blockMap : blockMapFile) (signum : Z) : M unit :=
  call log_info ("Received signal: [" +:+ str_of_int signum +:+ "]") in
  call Util.disconnect {| exportName := "" |} device in
  call log_info ("Removing temporary blockmap file: [" +:+ name blockMap +:+ "]") in
  call os_remove (name blockMap) in
  call log_info ("Removing nbdkit logfile: [" +:+ str_of_opt (logFile nbdkitProcess) +:+ "]") in
  call os_remove_path (logFile nbdkitProcess) in
  call killProc (pid nbdkitProcess) in
  sys_exit 0.

End WithCollaborators.
End Map.

(** * The collaborators as the spec describes them *)

(** Modelled from the spec: the Local Executor [command.run] (module
    [qemu/command.py] is not among the sources).  Section 4.2: the command
    is spawned and a ProcessHandle comes back, populated with the pid and
    the given pid-file path.  Section 7: a local spawn that exited non-zero
    is a CommandError carrying exit code and captured stderr, surfaced to
    the immediate caller and not retried.  What the operating system
    answers to the spawn is read from the world. *)
Definition spec_command_run (cmd : list string) (pidFile : option string)
    (toPipe : bool) : M processInfo :=
  fun w =>
    let r := os_spawn w (length (spawn_log w)) cmd in
    let w' := set_spawn_log (spawn_log w ++ [cmd]) w in
    if decide (exit_code r = 0)
    then (Ret {| pid := child_pid r; pidFile := pidFile; logFile := None |}, w')
    else (Raise (CommandError (exit_code r) (stderr_text r)), w').

(** Modelled from the spec: the process-kill collaborator
    [common.killProc] (module [common] is not among the sources).
    Section 6: best-effort signal delivery to a process id. *)
Definition spec_killProc (p : Z) : M bool :=
  fun w => (Ret true, set_procs (procs w ∖ {[p]}) w).

Definition spec_collaborators : Collaborators :=
  {| command_run := spec_command_run; killProc := spec_killProc |}.


(** A spawn answer: exit status [code], child pid 4242. *)
Definition answer (code : Z) : spawned :=
  {| exit_code := code; child_pid := 4242;
     stderr_text := if decide (code = 0) then "" else "failed" |}.

(** A world with the given files and processes, empty logs, in which
    the [k]-th spawn exits with the [k]-th status of [codes] (0 beyond),
    every existing path may be removed and no path has a second
    spelling. *)
Definition mk_world (fs : list string) (ps : list Z) (codes : list Z) : world :=
  {| files := list_to_set fs;
     procs := list_to_set ps;
     logged := [];
     tmp_rand := fun n => str_of_int (Z.of_nat n);
     tmp_used := 0;
     os_spawn := fun k _ => answer (nth k codes 0);
     spawn_log := [];
     os_refuses := fun _ => None;
     same_file := String.eqb |}.

(** ** Both remote start operations, and both handlers, under one name *)

Inductive remote_start :=
  | RemoteRestore (targetFile : string)
  | RemoteBackup (disk : DomainDisk) (bitMap : string) (port : Z).

Definition remote_prefix (op : remote_start) : string :=
  match op with
  | RemoteRestore _ => "qemu-nbd-restore"
  | RemoteBackup _ _ _ => "qemu-nbd-backup"
  end.

Definition remote_cmd (self : util) (args : Namespace) (op : remote_start)
    (pidFile logFile : string) : list string :=
  match op with
  | RemoteRestore targetFile =>
      Util.startRemoteRestoreNbdServer_cmd self args targetFile pidFile logFile
  | RemoteBackup disk bitMap port =>
      Util.startRemoteBackupNbdServer_cmd self args disk bitMap port pidFile logFile
  end.

Definition remote_start_run (self : util) (args : Namespace) (op : remote_start)
    : M processInfo :=
  match op with
  | RemoteRestore targetFile => Util.startRemoteRestoreNbdServer self args targetFile
  | RemoteBackup disk bitMap port => Util.startRemoteBackupNbdServer self args disk bitMap port
  end.

Inductive handler :=
  | BackupJob (args : Namespace) (domObj : virDomain) (virtClient : virt_client)
  | MapJob (nbdkitProcess : processInfo) (device : string) (blockMap : blockMapFile).

Definition handler_catch `{Collaborators} (h : handler) (signum : Z) : M unit :=
  match h with
  | BackupJob args domObj virtClient => Backup.catch args domObj virtClient signum
  | MapJob nbdkitProcess device blockMap => Map.catch nbdkitProcess device blockMap signum
  end.


(** ** Predicates on argument-list elements *)


Definition is_tls_object (s : string) : bool := String.prefix "tls-creds-x509" s.

Definition is_tls_creds_ref (s : string) : bool := String.prefix "--tls-creds" s.

Definition tls_token (s : string) : bool :=
  is_tls_object s || is_tls_creds_ref s || String.eqb s "--object".

Definition count_if (p : string -> bool) (l : list string) : nat :=
  length (List.filter p l).

(** The literal [_addTls] writes for certificate directory [certpath]. *)
Definition tls_object_literal (certpath : string) : string :=
  "tls-creds-x509,id=tls0,endpoint=server,dir=" +:+ certpath +:+ ",verify-peer=false".

(** [m] returns (does not raise) when run in [w]. *)
Definition returns {A} (m : M A) (w : world) : Prop :=
  exists a w', m w = (Ret a, w').

(** No element of the list is a TLS token. *)
Definition no_tls_token (l : list string) : bool :=
  forallb (fun s => negb (tls_token s)) l.

(** The elements of a remote argument list that are the caller's strings,
    taken over as they are. *)
Definition caller_values (self : util) (args : Namespace) (op : remote_start)
    (pidFile : string) : list string :=
  match op with
  | RemoteRestore targetFile => [ exportName self; targetFile; pidFile ]
  | RemoteBackup disk _ _ => [ exportName self; disk_path disk; pidFile; nbd_ip args ]
  end.


(** ** Concrete inputs *)

Definition ssh_refusing : sshClientT :=
  {| ssh_run := fun _ _ _ => raise (sshError "connection refused") |}.

Definition ssh_accepting : sshClientT :=
  {| ssh_run := fun _ pf lf => ret {| pid := 4242; pidFile := pf; logFile := lf |} |}.

Definition sample_args (tls_on : bool) (client : sshClientT) : Namespace :=
  {| offline := false; nbd_port := 10809; nbd_ip := ""; tls := tls_on;
     tls_cert := "/etc/pki/qemu"; sshClient := client; verbose := false;
     listen_address := "127.0.0.1"; listen_port := 10809; blocksize := 4096;
     threads := 1 |}.

Definition sample_disk : DomainDisk :=
  {| disk_format := "raw"; disk_path := "/var/lib/vm1.img" |}.

Definition sda : util := {| exportName := "sda" |}.

Definition sample_nbdkit : processInfo :=
  {| pid := 77; pidFile := None; logFile := Some "/tmp/nbdkit.log" |}.

Definition sample_blockmap : blockMapFile := {| name := "/tmp/blockmap" |}.

Definition offline_args : Namespace :=
  {| offline := true; nbd_port := 10809; nbd_ip := ""; tls := false;
     tls_cert := ""; sshClient := ssh_accepting; verbose := false;
     listen_address := "127.0.0.1"; listen_port := 10809; blocksize := 4096;
     threads := 1 |}.

Definition failing_virt_client : virt_client :=
  {| stopBackup := fun _ => raise (OtherError "no backup job running") |}.

Definition ssh_timing_out : sshClientT :=
  {| ssh_run := fun _ _ _ => raise (OtherError "timed out") |}.

(** An nbdkit handle whose log file is a second spelling of the block
    map's path. *)
Definition respelled_nbdkit : processInfo :=
  {| pid := 77; pidFile := None; logFile := Some "/tmp//blockmap" |}.

(** A world in which [/tmp//blockmap] and [/tmp/blockmap] are two
    spellings of the one existing file. *)
Definition respelled_world : world :=
  {| files := list_to_set [ "/tmp/blockmap"; "/tmp//blockmap" ];
     procs := list_to_set [ 77 ];
     logged := [];
     tmp_rand := fun n => str_of_int (Z.of_nat n);
     tmp_used := 0;
     os_spawn := fun _ _ => answer 0;
     spawn_log := [];
     os_refuses := fun _ => None;
     same_file := fun a b =>
       String.eqb a b
       || (String.eqb a "/tmp/blockmap" && String.eqb b "/tmp//blockmap")
       || (String.eqb a "/tmp//blockmap" && String.eqb b "/tmp/blockmap") |}.

(** * Properties *)

(** ** Image creation *)

(** C8: a create invocation with size 1073741824, format qcow2, target
    [T] and no extra format options builds exactly the seven-element list
    qemu-img, create, -f, qcow2, T, -o, size=1073741824, and that list is
    what the local executor is given. *)
Theorem create_qcow2_one_gib `{Collaborators} (T : string) :
  Util.create_cmd T 1073741824 "qcow2" [] =
    [ "qemu-img"; "create"; "-f"; "qcow2"; T; "-o"; "size=1073741824" ]
  /\ Util.create T 1073741824 "qcow2" [] None =
      command_run [ "qemu-img"; "create"; "-f"; "qcow2"; T; "-o"; "size=1073741824" ]
        None false.
Proof. split; reflexivity. Qed.

(** ** Local backup export *)

(** C5: for socket path [S] the pid-file path of a local backup export is
    [S] followed by [.pid]: that string is what [--pid-file=] carries on
    the command line, what the executor is given as pid-file, and what the
    returned process handle records; for [/tmp/sock1] it is
    [/tmp/sock1.pid]. *)
Theorem backup_pidfile_next_to_socket `{Collaborators} (self : util)
    (diskFormat diskFile S bitMap : string) :
  nth_error (Util.startBackupNbdServer_cmd self diskFormat diskFile S bitMap) 12 =
    Some ("--pid-file=" +:+ S +:+ ".pid")
  /\ Util.startBackupNbdServer self diskFormat diskFile S bitMap =
      command_run (Util.startBackupNbdServer_cmd self diskFormat diskFile S bitMap)
        (Some (S +:+ ".pid")) false
  /\ (forall w,
        match @Util.startBackupNbdServer spec_collaborators self diskFormat diskFile S bitMap w with
        | (Ret p, _) => pidFile p = Some (S +:+ ".pid")
        | (Raise _, _) => True
        end)
  /\ nth_error (Util.startBackupNbdServer_cmd self diskFormat diskFile "/tmp/sock1" bitMap) 12 =
      Some "--pid-file=/tmp/sock1.pid".
Proof.
  repeat split.
  intros w. unfold Util.startBackupNbdServer; simpl.
  unfold spec_command_run. destruct (decide _); reflexivity.
Qed.

(** ** Disconnect *)

Lemma disconnect_unfold `{Collaborators} (self : util) (d : string) (w : world) :
  Util.disconnect self d w =
    command_run [ "qemu-nbd"; "-d"; d ] None false
      (set_logged (logged w ++ [(INFO, "Disconnecting device [" +:+ d +:+ "]")]) w).
Proof. reflexivity. Qed.

(** C10: the disconnect command does not depend on the export name the
    wrapper was constructed with: for device [d] it is always qemu-nbd, -d,
    [d]; the map cleanup, which builds the wrapper with the empty export
    name, spawns exactly that command and no other. *)
Theorem disconnect_cmd_ignores_export_name `{Collaborators} (n1 n2 d : string) :
  Util.disconnect {| exportName := n1 |} d = Util.disconnect {| exportName := n2 |} d
  /\ Util.disconnect {| exportName := n1 |} d =
       (call log_info ("Disconnecting device [" +:+ d +:+ "]") in
        command_run [ "qemu-nbd"; "-d"; d ] None false)
  /\ (forall (nbdkitProcess : processInfo) (blockMap : blockMapFile) (signum : Z) (w : world),
        spawn_log (snd (@Map.catch spec_collaborators nbdkitProcess d blockMap signum w)) =
          spawn_log w ++ [ [ "qemu-nbd"; "-d"; d ] ]).
Proof.
  repeat split.
  intros np bm sg w.
  unfold Map.catch, Util.disconnect, bind, log_info, log_at; simpl.
  unfold spec_command_run; simpl.
  destruct (decide (exit_code _ = 0)); simpl; [| reflexivity].
  unfold os_remove at 1; simpl.
  destruct (decide (name bm ∈ _)); simpl; [| reflexivity].
  destruct (os_refuses w (name bm)); simpl; [reflexivity |].
  destruct (logFile np) as [l |]; simpl; [| reflexivity].
  unfold os_remove; simpl.
  destruct (decide (l ∈ _)); [| reflexivity].
  destruct (os_refuses w l); reflexivity.
Qed.

(** ** The bitmap flag of the backup builders *)

(** C3, as the code has it: with an empty bitmap the local backup builder
    ends its argument list with the end-of-options terminator, while the
    remote backup builder leaves the bitmap flag out and emits no
    terminator: its list is the eleven fixed elements, the bind address
    when one is set, the TLS options when TLS is on, and the redirection. *)
Theorem backup_empty_bitmap (self : util) (args : Namespace) (disk : DomainDisk)
    (diskFormat diskFile socketFile : string) (port : Z) (pidFile logFile : string) :
  Util.startBackupNbdServer_cmd self diskFormat diskFile socketFile "" =
    [ "qemu-nbd"; "-r"; "--format=" +:+ diskFormat; "-x"; exportName self; diskFile;
      "-k"; socketFile; "-t"; "-e 2"; "--fork"; "--detect-zeroes=on";
      "--pid-file=" +:+ socketFile +:+ ".pid"; "--" ]
  /\ Util.startRemoteBackupNbdServer_cmd self args disk "" port pidFile logFile =
    [ "qemu-nbd"; "-r"; "--format=" +:+ disk_format disk; "-x"; exportName self;
      disk_path disk; "-p"; str_of_int port; "--pid-file"; pidFile; "--fork" ]
    ++ (if decide (nbd_ip args ≠ "") then [ "-b"; nbd_ip args ] else [])
    ++ (if tls args then [ "--object"; tls_object_literal (tls_cert args); "--tls-creds tls0" ]
        else [])
    ++ [ "> " +:+ logFile +:+ " 2>&1" ].
Proof.
  split; [reflexivity |].
  unfold Util.startRemoteBackupNbdServer_cmd, Util._addTls, tls_object_literal.
  destruct (decide (nbd_ip args ≠ "")), (tls args); reflexivity.
Qed.

(** C3 fails as stated: built with the empty bitmap, the remote backup
    command carries no end-of-options terminator; the bitmap flag is left
    out altogether. *)
Lemma remote_backup_empty_bitmap_has_no_terminator :
  Util.startRemoteBackupNbdServer_cmd sda (sample_args false ssh_accepting) sample_disk ""
    10809 "/tmp/qemu-nbd-backup0.pid" "/tmp/qemu-nbd-backup1.log" =
    [ "qemu-nbd"; "-r"; "--format=raw"; "-x"; "sda"; "/var/lib/vm1.img"; "-p"; "10809";
      "--pid-file"; "/tmp/qemu-nbd-backup0.pid"; "--fork";
      "> /tmp/qemu-nbd-backup1.log 2>&1" ]
  /\ ~ In "--"
       (Util.startRemoteBackupNbdServer_cmd sda (sample_args false ssh_accepting) sample_disk
          "" 10809 "/tmp/qemu-nbd-backup0.pid" "/tmp/qemu-nbd-backup1.log").
Proof.
  split; [reflexivity |].
  vm_compute. intros Hin.
  repeat (destruct Hin as [Hin | Hin]; [discriminate |]). exact Hin.
Qed.

(** ** Filtering an argument list *)

Lemma filter_keep (p : string -> bool) (x : string) (l : list string) :
  p x = true -> List.filter p (x :: l) = x :: List.filter p l.
Proof. intros Hx. simpl. rewrite Hx. reflexivity. Qed.

Lemma filter_drop (p : string -> bool) (x : string) (l : list string) :
  p x = false -> List.filter p (x :: l) = List.filter p l.
Proof. intros Hx. simpl. rewrite Hx. reflexivity. Qed.

(** ** Elements that carry a space *)




Lemma create_cmd_app (targetFile : string) (fileSize : Z) (diskFormat : string)
    (qcowOptions : list string) :
  Util.create_cmd targetFile fileSize diskFormat qcowOptions =
    [ "qemu-img"; "create"; "-f"; diskFormat; targetFile; "-o";
      "size=" +:+ str_of_int fileSize ] ++ qcowOptions.
Proof. destruct qcowOptions; reflexivity. Qed.


(** ** TLS options of the remote builders *)

Lemma tls_token_false (s : string) :
  tls_token s = false ->
  is_tls_object s = false /\ is_tls_creds_ref s = false /\ String.eqb s "--object" = false.
Proof.
  unfold tls_token. intros Ht.
  apply orb_false_elim in Ht as [Ht Ho]. apply orb_false_elim in Ht as [Ha Hb]. auto.
Qed.

Lemma tls_token_str_of_int (n : Z) : tls_token (str_of_int n) = false.
Proof.
  unfold str_of_int. destruct (Z.to_int n) as [d | d]; simpl;
    destruct d; reflexivity.
Qed.

Lemma tls_parts_str_of_int (n : Z) :
  is_tls_object (str_of_int n) = false /\ is_tls_creds_ref (str_of_int n) = false.
Proof.
  destruct (tls_token_false _ (tls_token_str_of_int n)) as (Ha & Hb & _). auto.
Qed.

Lemma remote_tls_tokens_exact (self : util) (args : Namespace) (op : remote_start)
    (pidFile logFile : string) :
  let cmd := remote_cmd self args op pidFile logFile in
  let own := caller_values self args op pidFile in
  if tls args
  then List.filter is_tls_object cmd =
         List.filter is_tls_object own
         ++ [ "tls-creds-x509,id=tls0,endpoint=server,dir=" +:+ tls_cert args
              +:+ ",verify-peer=false" ]
       /\ List.filter is_tls_creds_ref cmd =
          List.filter is_tls_creds_ref own ++ [ "--tls-creds tls0" ]
       /\ List.filter tls_token cmd =
          List.filter tls_token own
          ++ [ "--object";
               "tls-creds-x509,id=tls0,endpoint=server,dir=" +:+ tls_cert args
               +:+ ",verify-peer=false";
               "--tls-creds tls0" ]
  else List.filter tls_token cmd = List.filter tls_token own.
Proof.
  intros cmd own. subst cmd own.
  destruct op as [targetFile | disk bitMap port];
    unfold remote_cmd, caller_values, Util.startRemoteRestoreNbdServer_cmd,
      Util.startRemoteBackupNbdServer_cmd, Util._addTls;
    repeat match goal with
           | |- context [decide (?a ≠ ?b)] =>
               let Hd := fresh "Hd" in
               destruct (decide (a ≠ b)) as [Hd | Hd];
               [| apply dec_stable in Hd; try rewrite Hd ]
           end;
    destruct (tls args); cbn [app]; repeat split;
    repeat match goal with
           | |- _ = ?R =>
               match R with
               | context [List.filter ?p (?x :: ?l)] =>
                   first
                     [ rewrite (filter_drop p x l) by reflexivity
                     | destruct (p x) eqn:?;
                       [ rewrite (filter_keep p x l) by assumption
                       | rewrite (filter_drop p x l) by assumption ] ]
               end
           end;
    repeat first
      [ rewrite filter_drop
          by first [ assumption | apply tls_token_str_of_int
                   | apply tls_parts_str_of_int | reflexivity ]
      | rewrite filter_keep
          by first [ assumption | apply tls_token_str_of_int
                   | apply tls_parts_str_of_int | reflexivity ] ];
    reflexivity.
Qed.

Lemma remote_tls_tokens_of_clean_values (self : util) (args : Namespace) (op : remote_start)
    (pidFile logFile : string) :
  no_tls_token (caller_values self args op pidFile) = true ->
  let cmd := remote_cmd self args op pidFile logFile in
  if tls args
  then List.filter is_tls_object cmd =
         [ "tls-creds-x509,id=tls0,endpoint=server,dir=" +:+ tls_cert args
           +:+ ",verify-peer=false" ]
       /\ List.filter is_tls_creds_ref cmd = [ "--tls-creds tls0" ]
       /\ count_if is_tls_object cmd = 1%nat
       /\ count_if is_tls_creds_ref cmd = 1%nat
  else count_if tls_token cmd = 0%nat.
Proof.
  intros Hc cmd. subst cmd. unfold count_if.
  destruct op as [targetFile | disk bitMap port]; simpl in Hc;
    repeat match goal with
           | H : _ && _ = true |- _ => apply andb_prop in H; destruct H
           | H : negb _ = true |- _ => apply negb_true_iff in H
           | H : tls_token ?s = false |- _ =>
               let Ha := fresh "Ha" in
               let Hb := fresh "Hb" in
               let Ho := fresh "Ho" in
               pose proof (tls_token_false s H) as (Ha & Hb & Ho); revert H
           end;
    intros;
    unfold remote_cmd, Util.startRemoteRestoreNbdServer_cmd,
      Util.startRemoteBackupNbdServer_cmd, Util._addTls;
    repeat match goal with
           | |- context [decide (?a ≠ ?b)] => destruct (decide (a ≠ b))
           end;
    destruct (tls args); cbn [app];
    repeat first
      [ rewrite filter_drop
          by first [ assumption | apply tls_token_str_of_int
                   | apply tls_parts_str_of_int | reflexivity ]
      | rewrite filter_keep
          by first [ assumption | apply tls_token_str_of_int
                   | apply tls_parts_str_of_int | reflexivity ] ];
    auto.
Qed.

(** C4, as the code has it: the builders take the caller's strings
    over as they are.  The TLS tokens of a remote argument list (the
    elements that start with [tls-creds-x509] or with [--tls-creds], or
    that are [--object]) are those among the caller's own whole-element
    strings (export name, target or disk path, pid-file, bind address),
    followed with TLS enabled by the three elements that the builder
    adds, [--object], the one object definition, naming the endpoint role
    server and verify-peer=false, and the one reference, and by nothing
    with TLS disabled.  So when none
    of the caller's strings is a TLS token, the list has exactly one
    object definition and exactly one reference with TLS enabled, and no
    TLS token with TLS disabled. *)
Theorem remote_tls_tokens (self : util) (args : Namespace) (op : remote_start)
    (pidFile logFile : string) :
  (if tls args
   then List.filter is_tls_object (remote_cmd self args op pidFile logFile) =
          List.filter is_tls_object (caller_values self args op pidFile)
          ++ [ "tls-creds-x509,id=tls0,endpoint=server,dir=" +:+ tls_cert args
               +:+ ",verify-peer=false" ]
        /\ List.filter is_tls_creds_ref (remote_cmd self args op pidFile logFile) =
           List.filter is_tls_creds_ref (caller_values self args op pidFile)
           ++ [ "--tls-creds tls0" ]
        /\ List.filter tls_token (remote_cmd self args op pidFile logFile) =
           List.filter tls_token (caller_values self args op pidFile)
           ++ [ "--object";
                "tls-creds-x509,id=tls0,endpoint=server,dir=" +:+ tls_cert args
                +:+ ",verify-peer=false";
                "--tls-creds tls0" ]
   else List.filter tls_token (remote_cmd self args op pidFile logFile) =
          List.filter tls_token (caller_values self args op pidFile))
  /\ (no_tls_token (caller_values self args op pidFile) = true ->
      if tls args
      then List.filter is_tls_object (remote_cmd self args op pidFile logFile) =
             [ "tls-creds-x509,id=tls0,endpoint=server,dir=" +:+ tls_cert args
               +:+ ",verify-peer=false" ]
           /\ List.filter is_tls_creds_ref (remote_cmd self args op pidFile logFile) =
              [ "--tls-creds tls0" ]
           /\ count_if is_tls_object (remote_cmd self args op pidFile logFile) = 1%nat
           /\ count_if is_tls_creds_ref (remote_cmd self args op pidFile logFile) = 1%nat
      else count_if tls_token (remote_cmd self args op pidFile logFile) = 0%nat).
Proof.
  split.
  - apply remote_tls_tokens_exact.
  - apply remote_tls_tokens_of_clean_values.
Qed.

Lemma remote_tls_tokens_witness :
  no_tls_token (caller_values sda (sample_args true ssh_accepting)
                  (RemoteRestore "/restore/vm1.qcow2") "/tmp/q.pid") = true
  /\ List.filter is_tls_object
       (remote_cmd sda (sample_args true ssh_accepting) (RemoteRestore "/restore/vm1.qcow2")
          "/tmp/q.pid" "/tmp/q.log") =
     [ "tls-creds-x509,id=tls0,endpoint=server,dir=/etc/pki/qemu,verify-peer=false" ]
  /\ count_if tls_token
       (remote_cmd sda (sample_args false ssh_accepting) (RemoteRestore "/restore/vm1.qcow2")
          "/tmp/q.pid" "/tmp/q.log") = 0%nat.
Proof.
  split; [reflexivity |]. split.
  - apply (proj2 (remote_tls_tokens sda (sample_args true ssh_accepting)
                    (RemoteRestore "/restore/vm1.qcow2") "/tmp/q.pid" "/tmp/q.log") eq_refl).
  - apply (proj2 (remote_tls_tokens sda (sample_args false ssh_accepting)
                    (RemoteRestore "/restore/vm1.qcow2") "/tmp/q.pid" "/tmp/q.log") eq_refl).
Defined.

(** C4 fails as stated: an export name that is itself a [--tls-creds]
    token gives a list with two such references under TLS, and a target
    path [--object] puts a TLS token into a list built with TLS
    disabled. *)
Lemma remote_tls_tokens_from_the_caller :
  count_if is_tls_creds_ref
    (remote_cmd {| exportName := "--tls-creds tls0" |} (sample_args true ssh_accepting)
       (RemoteRestore "/restore/vm1.qcow2") "/tmp/q.pid" "/tmp/q.log") = 2%nat
  /\ count_if tls_token
       (remote_cmd sda (sample_args false ssh_accepting) (RemoteRestore "--object")
          "/tmp/q.pid" "/tmp/q.log") = 1%nat.
Proof. split; reflexivity. Qed.

(** ** Failure of the remote executor *)

(** C6: when the remote executor fails with [sshError] in a remote start
    operation (restore or backup), the operation logs an error record that
    names the allocated log file and then raises the same [sshError]:
    that is the whole result. *)
Theorem remote_start_logs_and_reraises (self : util) (args : Namespace)
    (op : remote_start) (w w1 w2 w3 : world) (pidFile logFile msg : string) :
  Util._gt (remote_prefix op) ".pid" w = (Ret pidFile, w1) ->
  Util._gt (remote_prefix op) ".log" w1 = (Ret logFile, w2) ->
  ssh_run (sshClient args) (join (remote_cmd self args op pidFile logFile))
    (Some pidFile) (Some logFile) w2 = (Raise (sshError msg), w3) ->
  remote_start_run self args op w =
    (Raise (sshError msg),
     set_logged
       (logged w3 ++
        [(ERROR, "Executing command failed: check [" +:+ logFile +:+ "] for errors.")])
       w3).
Proof.
  intros Hpid Hlog Hrun.
  destruct op as [targetFile | disk bitMap port]; simpl in *.
  - unfold Util.startRemoteRestoreNbdServer, bind. rewrite Hpid, Hlog.
    unfold try_except_sshError. rewrite Hrun. reflexivity.
  - unfold Util.startRemoteBackupNbdServer, bind. rewrite Hpid, Hlog.
    unfold try_except_sshError. rewrite Hrun. reflexivity.
Qed.

Lemma remote_start_logs_and_reraises_witness :
  let w := mk_world [] [] [] in
  fst (remote_start_run sda (sample_args false ssh_refusing)
         (RemoteBackup sample_disk "" 10809) w) = Raise (sshError "connection refused")
  /\ logged (snd (remote_start_run sda (sample_args false ssh_refusing)
                    (RemoteBackup sample_disk "" 10809) w)) =
     [(ERROR, "Executing command failed: check [/tmp/qemu-nbd-backup1.log] for errors.")].
Proof.
  intros w.
  rewrite (remote_start_logs_and_reraises sda (sample_args false ssh_refusing)
             (RemoteBackup sample_disk "" 10809) w _ _ _ _ _ "connection refused"
             eq_refl eq_refl eq_refl).
  split; reflexivity.
Defined.

(** ** Disconnecting twice *)

(** C7, as the code has it: [disconnect] logs the action and hands the
    command to the local executor without any handler of its own.  When
    the first of two calls in succession returns, the pair ends exactly
    as the executor ends the second run of qemu-nbd -d: it returns the
    executor's handle, or raises the executor's error to the caller. *)
Theorem disconnect_twice_follows_executor `{Collaborators} (self : util) (d : string)
    (w w1 : world) (p1 : processInfo) :
  Util.disconnect self d w = (Ret p1, w1) ->
  (call Util.disconnect self d in Util.disconnect self d) w =
    command_run [ "qemu-nbd"; "-d"; d ] None false
      (set_logged (logged w1 ++ [(INFO, "Disconnecting device [" +:+ d +:+ "]")]) w1).
Proof.
  intros Hfirst. unfold bind at 1. rewrite Hfirst. apply disconnect_unfold.
Qed.

Lemma disconnect_twice_follows_executor_witness :
  Util.disconnect (H := spec_collaborators) sda "/dev/nbd0" (mk_world [] [] [0; 0]) =
    (Ret {| pid := 4242; pidFile := None; logFile := None |},
     snd (Util.disconnect (H := spec_collaborators) sda "/dev/nbd0" (mk_world [] [] [0; 0])))
  /\ fst ((call Util.disconnect (H := spec_collaborators) sda "/dev/nbd0" in
           Util.disconnect (H := spec_collaborators) sda "/dev/nbd0")
            (mk_world [] [] [0; 0])) =
     Ret {| pid := 4242; pidFile := None; logFile := None |}.
Proof.
  split; [reflexivity |].
  rewrite (disconnect_twice_follows_executor (H := spec_collaborators) sda "/dev/nbd0"
             (mk_world [] [] [0; 0]) _ _ eq_refl).
  reflexivity.
Defined.

(** C7 fails as stated: the second qemu-nbd -d exits non-zero, the
    executor raises CommandError, and the second [disconnect] passes it on
    to its caller. *)
Lemma disconnect_second_call_raises :
  fst ((call Util.disconnect (H := spec_collaborators) sda "/dev/nbd0" in
        Util.disconnect (H := spec_collaborators) sda "/dev/nbd0")
         (mk_world [] [] [0; 1])) =
  Raise (CommandError 1 "failed").
Proof. reflexivity. Qed.

(** ** The signal handlers *)




Lemma logged_twice (l : list (level * string)) (a b : level * string) :
  (l ++ [a]) ++ [b] = l ++ [a; b].
Proof. rewrite <- app_assoc. reflexivity. Qed.

Lemma run_returns {A} (m : M A) (w : world) (a : A) :
  fst (m w) = Ret a -> m w = (Ret a, snd (m w)).
Proof. destruct (m w) as [r w']. simpl. intros Hr. rewrite Hr. reflexivity. Qed.




(** * Further properties of the handlers *)

Lemma bind_never_returns {A B} (m : M A) (k : A -> M B) (w : world) :
  (forall a w', exists e, fst (k a w') = Raise e) ->
  exists e, fst (bind m k w) = Raise e.
Proof.
  intros Hk. unfold bind. destruct (m w) as [[a | err] w']; [apply Hk |].
  exists err. reflexivity.
Qed.

(** X1: a signal handler never returns to the code it interrupted: in
    every world and with any collaborators, [Backup.catch] and
    [Map.catch] end by raising, be it [SystemExit] or the exception of a
    cleanup step. *)
Theorem handler_never_returns `{Collaborators} (h : handler) (signum : Z) (w : world) :
  exists e, fst (handler_catch h signum w) = Raise e.
Proof.
  destruct h as [args domObj virtClient | nbdkitProcess device blockMap]; simpl.
  - unfold Backup.catch.
    repeat (apply bind_never_returns; intros).
    exists (SystemExit 1). reflexivity.
  - unfold Map.catch.
    repeat (apply bind_never_returns; intros).
    exists (SystemExit 0). reflexivity.
Qed.

(** X2: for an offline backup the backup handler does not consult the
    domain-management client at all: whatever [stopBackup] would do, the
    handler only writes its two error records (the second one still says
    that the backup job is being stopped) and exits with status 1. *)
Theorem backup_catch_offline_only_logs (args : Namespace) (domObj : virDomain)
    (virtClient : virt_client) (signum : Z) (w : world) :
  offline args = true ->
  Backup.catch args domObj virtClient signum w =
    (Raise (SystemExit 1),
     set_logged
       (logged w ++
        [(ERROR, "Caught signal: " +:+ str_of_int signum);
         (ERROR, "Cleanup: Stopping backup job")]) w).
Proof.
  intros Hoff. unfold Backup.catch, bind, log_error, log_at; simpl.
  rewrite Hoff; simpl. rewrite logged_twice. reflexivity.
Qed.

Lemma backup_catch_offline_only_logs_witness :
  Backup.catch offline_args (Domain "vm1") failing_virt_client 2 (mk_world [] [] []) =
    (Raise (SystemExit 1),
     set_logged
       [(ERROR, "Caught signal: 2"); (ERROR, "Cleanup: Stopping backup job")]
       (mk_world [] [] [])).
Proof.
  apply (backup_catch_offline_only_logs offline_args (Domain "vm1") failing_virt_client 2
           (mk_world [] [] []) eq_refl).
Defined.

(** X3: for a backup that is not offline the backup handler ends as
    [stopBackup] ends: when [stopBackup] returns, with either truth
    value, the handler exits with status 1; when [stopBackup] raises, its
    exception leaves the handler and the exit is not reached.  Either way
    the world is the one [stopBackup] left. *)
Theorem backup_catch_follows_stopBackup (args : Namespace) (domObj : virDomain)
    (virtClient : virt_client) (signum : Z) (w w' : world) (r : outcome bool) :
  offline args = false ->
  stopBackup virtClient domObj
    (set_logged
       (logged w ++
        [(ERROR, "Caught signal: " +:+ str_of_int signum);
         (ERROR, "Cleanup: Stopping backup job")]) w) = (r, w') ->
  Backup.catch args domObj virtClient signum w =
    (match r with
     | Ret _ => Raise (SystemExit 1)
     | Raise e => Raise e
     end, w').
Proof.
  intros Hoff Hstop. unfold Backup.catch, bind, log_error, log_at; simpl.
  rewrite Hoff; simpl. rewrite logged_twice.
  change (set_logged ?l (set_logged _ w)) with (set_logged l w).
  rewrite Hstop. destruct r; reflexivity.
Qed.

Lemma backup_catch_follows_stopBackup_witness :
  fst (Backup.catch (sample_args false ssh_accepting) (Domain "vm1") failing_virt_client 15
         (mk_world [] [] [])) = Raise (OtherError "no backup job running").
Proof.
  rewrite (backup_catch_follows_stopBackup (sample_args false ssh_accepting) (Domain "vm1")
             failing_virt_client 15 (mk_world [] [] []) _
             (Raise (OtherError "no backup job running")) eq_refl eq_refl).
  reflexivity.
Defined.

(** X4: when the disconnect fails in the map handler, its exception
    leaves the handler at once: the world is the one the disconnect
    left, so neither temporary file is removed and the nbdkit process is
    not killed. *)
Theorem map_catch_stops_at_failed_disconnect `{Collaborators} (nbdkitProcess : processInfo)
    (device : string) (blockMap : blockMapFile) (signum : Z) (w w1 : world) (e : exn) :
  Util.disconnect {| exportName := "" |} device
    (set_logged (logged w ++ [(INFO, "Received signal: [" +:+ str_of_int signum +:+ "]")]) w) =
    (Raise e, w1) ->
  Map.catch nbdkitProcess device blockMap signum w = (Raise e, w1).
Proof.
  intros Hdis. unfold Map.catch. unfold bind at 1. unfold log_info at 1, log_at at 1.
  unfold bind at 1. rewrite Hdis. reflexivity.
Qed.

Lemma map_catch_stops_at_failed_disconnect_witness :
  let r := Map.catch (H := spec_collaborators) sample_nbdkit "/dev/nbd0" sample_blockmap 15
             (mk_world [ "/tmp/blockmap"; "/tmp/nbdkit.log" ] [ 77 ] [ 1 ]) in
  fst r = Raise (CommandError 1 "failed")
  /\ "/tmp/blockmap" ∈ files (snd r)
  /\ 77 ∈ procs (snd r).
Proof.
  intros r. subst r.
  rewrite (map_catch_stops_at_failed_disconnect (H := spec_collaborators) sample_nbdkit
             "/dev/nbd0" sample_blockmap 15
             (mk_world [ "/tmp/blockmap"; "/tmp/nbdkit.log" ] [ 77 ] [ 1 ]) _
             (CommandError 1 "failed") eq_refl).
  split; [reflexivity |].
  split; apply (bool_decide_unpack _); vm_compute; exact I.
Defined.

Lemma os_remove_returned (path : string) (w w' : world) :
  os_remove path w = (Ret tt, w') ->
  (path ∈ files w)
  /\ w' = set_files (filter (fun q => same_file w path q = false) (files w ∖ {[path]})) w.
Proof.
  unfold os_remove. destruct (decide (path ∈ files w)) as [Hin | Hout]; [| discriminate].
  destruct (os_refuses w path); [discriminate |].
  intros E. injection E as E. auto.
Qed.

Lemma os_remove_effect (path : string) (w w' : world) :
  os_remove path w = (Ret tt, w') ->
  (path ∉ files w')
  /\ (files w' ⊆ files w)
  /\ (forall q, same_file w path q = true -> q ∉ files w')
  /\ procs w' = procs w /\ logged w' = logged w.
Proof.
  intros Hrm. apply os_remove_returned in Hrm as [Hin Hw']. subst w'. simpl.
  split; [| split; [| split; [| split; reflexivity]]].
  - intros Hp. apply elem_of_filter in Hp as [_ Hp].
    apply elem_of_difference in Hp as [_ Hp]. apply Hp. apply elem_of_singleton. reflexivity.
  - intros q Hq. apply elem_of_filter in Hq as [_ Hq].
    apply elem_of_difference in Hq as [Hq _]. exact Hq.
  - intros q Hsame Hq. apply elem_of_filter in Hq as [Hq _]. congruence.
Qed.

(** X5: when the block map has been removed and the nbdkit log file is
    then not there, because it never was, because the handle names the
    block map's own path as log file, or because its path is another
    spelling of the block map's, the map handler ends in
    FileNotFoundError for the log file: the block map stays removed,
    nothing else happens to the files and the nbdkit process is not
    killed. *)
Theorem map_catch_stops_at_missing_logfile `{Collaborators} (nbdkitProcess : processInfo)
    (device : string) (blockMap : blockMapFile) (signum : Z) (w w1 w2 : world)
    (p1 : processInfo) (l : string) :
  Util.disconnect {| exportName := "" |} device
    (set_logged (logged w ++ [(INFO, "Received signal: [" +:+ str_of_int signum +:+ "]")]) w) =
    (Ret p1, w1) ->
  os_remove (name blockMap)
    (set_logged
       (logged w1 ++
        [(INFO, "Removing temporary blockmap file: [" +:+ name blockMap +:+ "]")]) w1) =
    (Ret tt, w2) ->
  logFile nbdkitProcess = Some l ->
  (l ∉ files w1) \/ l = name blockMap \/ same_file w1 (name blockMap) l = true ->
  Map.catch nbdkitProcess device blockMap signum w =
    (Raise (FileNotFoundError l),
     set_logged (logged w2 ++ [(INFO, "Removing nbdkit logfile: [" +:+ l +:+ "]")]) w2)
  /\ (name blockMap ∉ files w2)
  /\ (files w2 ⊆ files w1)
  /\ procs w2 = procs w1.
Proof.
  intros Hdis Hmap Hlog Hgone.
  destruct (os_remove_effect _ _ _ Hmap) as (Hbm & Hsub & Hspell & Hprocs & _).
  simpl in Hsub, Hspell, Hprocs.
  assert (l ∉ files w2) as Hl.
  { destruct Hgone as [Hnot | [Hsame | Hsame]].
    - intros Hin. apply Hnot. apply Hsub. exact Hin.
    - rewrite Hsame. exact Hbm.
    - apply Hspell. exact Hsame. }
  split; [| auto].
  unfold Map.catch. unfold bind at 1. unfold log_info at 1, log_at at 1.
  unfold bind at 1. rewrite Hdis.
  unfold bind at 1. unfold log_info at 1, log_at at 1.
  unfold bind at 1. rewrite Hmap.
  unfold bind at 1. unfold log_info at 1, log_at at 1.
  unfold bind at 1. rewrite Hlog. unfold os_remove_path, os_remove. simpl.
  destruct (decide (l ∈ files w2)); [contradiction | reflexivity].
Qed.

Lemma map_catch_stops_at_missing_logfile_witness :
  let r := Map.catch (H := spec_collaborators) respelled_nbdkit "/dev/nbd0" sample_blockmap 15
             respelled_world in
  fst r = Raise (FileNotFoundError "/tmp//blockmap")
  /\ 77 ∈ procs (snd r).
Proof.
  intros r. subst r.
  pose (w1 := snd (Util.disconnect (H := spec_collaborators) {| exportName := "" |}
                     "/dev/nbd0"
                     (set_logged
                        (logged respelled_world ++ [(INFO, "Received signal: [15]")])
                        respelled_world))).
  pose (w2 := snd (os_remove "/tmp/blockmap"
                     (set_logged
                        (logged w1 ++
                         [(INFO, "Removing temporary blockmap file: [/tmp/blockmap]")])
                        w1))).
  destruct (map_catch_stops_at_missing_logfile (H := spec_collaborators)
              respelled_nbdkit "/dev/nbd0" sample_blockmap 15 respelled_world w1 w2
              {| pid := 4242; pidFile := None; logFile := None |} "/tmp//blockmap")
    as (Hcatch & _ & _ & Hprocs).
  - reflexivity.
  - apply run_returns. vm_compute. reflexivity.
  - reflexivity.
  - right. right. reflexivity.
  - rewrite Hcatch. split; [reflexivity |].
    apply (bool_decide_unpack _). vm_compute. exact I.
Defined.

(** X6: when the disconnect and both removals return, the map handler
    has removed the block map and the log file, created nothing, left the
    processes alone and logged both removals by the time it hands the pid
    of the nbdkit handle to [killProc]; what [killProc] does then decides
    how the handler ends. *)
Theorem map_catch_removes_then_kills `{Collaborators} (nbdkitProcess : processInfo)
    (device : string) (blockMap : blockMapFile) (signum : Z) (w w1 w2 w3 : world)
    (p1 : processInfo) (l : string) :
  Util.disconnect {| exportName := "" |} device
    (set_logged (logged w ++ [(INFO, "Received signal: [" +:+ str_of_int signum +:+ "]")]) w) =
    (Ret p1, w1) ->
  os_remove (name blockMap)
    (set_logged
       (logged w1 ++
        [(INFO, "Removing temporary blockmap file: [" +:+ name blockMap +:+ "]")]) w1) =
    (Ret tt, w2) ->
  logFile nbdkitProcess = Some l ->
  os_remove l
    (set_logged (logged w2 ++ [(INFO, "Removing nbdkit logfile: [" +:+ l +:+ "]")]) w2) =
    (Ret tt, w3) ->
  Map.catch nbdkitProcess device blockMap signum w =
    (call killProc (pid nbdkitProcess) in sys_exit 0) w3
  /\ (name blockMap ∉ files w3)
  /\ (l ∉ files w3)
  /\ (files w3 ⊆ files w1)
  /\ procs w3 = procs w1
  /\ logged w3 =
     logged w1 ++
     [(INFO, "Removing temporary blockmap file: [" +:+ name blockMap +:+ "]");
      (INFO, "Removing nbdkit logfile: [" +:+ l +:+ "]")].
Proof.
  intros Hdis Hmap Hlog Hrm.
  destruct (os_remove_effect _ _ _ Hmap) as (Hbm & Hsub & _ & Hprocs & Hlogged).
  destruct (os_remove_effect _ _ _ Hrm) as (Hl & Hsub' & _ & Hprocs' & Hlogged').
  simpl in Hsub, Hprocs, Hlogged, Hsub', Hprocs', Hlogged'.
  split; [| split; [| split; [| split; [| split]]]].
  - unfold Map.catch. unfold bind at 1. unfold log_info at 1, log_at at 1.
    unfold bind at 1. rewrite Hdis.
    unfold bind at 1. unfold log_info at 1, log_at at 1.
    unfold bind at 1. rewrite Hmap.
    unfold bind at 1. unfold log_info at 1, log_at at 1.
    unfold bind at 1. rewrite Hlog. unfold os_remove_path. simpl. rewrite Hrm.
    reflexivity.
  - intros Hin. apply Hbm. apply Hsub'. exact Hin.
  - exact Hl.
  - intros q Hq. apply Hsub. apply Hsub'. exact Hq.
  - rewrite Hprocs'. exact Hprocs.
  - rewrite Hlogged', Hlogged. apply logged_twice.
Qed.

Lemma map_catch_removes_then_kills_witness :
  let r := Map.catch (H := spec_collaborators) sample_nbdkit "/dev/nbd0" sample_blockmap 15
             (mk_world [ "/tmp/blockmap"; "/tmp/nbdkit.log"; "/tmp/other" ] [ 77; 78 ] []) in
  fst r = Raise (SystemExit 0)
  /\ elements (files (snd r)) = [ "/tmp/other" ]
  /\ elements (procs (snd r)) = [ 78 ].
Proof.
  intros r. subst r.
  pose (w0 := mk_world [ "/tmp/blockmap"; "/tmp/nbdkit.log"; "/tmp/other" ] [ 77; 78 ] []).
  pose (w1 := snd (Util.disconnect (H := spec_collaborators) {| exportName := "" |}
                     "/dev/nbd0"
                     (set_logged (logged w0 ++ [(INFO, "Received signal: [15]")]) w0))).
  pose (w2 := snd (os_remove "/tmp/blockmap"
                     (set_logged
                        (logged w1 ++
                         [(INFO, "Removing temporary blockmap file: [/tmp/blockmap]")])
                        w1))).
  pose (w3 := snd (os_remove "/tmp/nbdkit.log"
                     (set_logged
                        (logged w2 ++ [(INFO, "Removing nbdkit logfile: [/tmp/nbdkit.log]")])
                        w2))).
  destruct (map_catch_removes_then_kills (H := spec_collaborators) sample_nbdkit
              "/dev/nbd0" sample_blockmap 15 w0 w1 w2 w3
              {| pid := 4242; pidFile := None; logFile := None |} "/tmp/nbdkit.log")
    as (Hcatch & _).
  - reflexivity.
  - apply run_returns. vm_compute. reflexivity.
  - reflexivity.
  - apply run_returns. vm_compute. reflexivity.
  - fold w0. rewrite Hcatch. split; [reflexivity |]. split; vm_compute; reflexivity.
Defined.

(** * Further properties of the export-server wrapper *)

(** X7: in a remote start operation only [sshError] is logged: when the
    remote executor returns a handle, or raises anything else, the
    operation ends exactly as the executor ended, and no record naming
    the log file is written. *)
Theorem remote_start_passes_other_results (self : util) (args : Namespace)
    (op : remote_start) (w w1 w2 w3 : world) (pidFile logFile : string)
    (r : outcome processInfo) :
  Util._gt (remote_prefix op) ".pid" w = (Ret pidFile, w1) ->
  Util._gt (remote_prefix op) ".log" w1 = (Ret logFile, w2) ->
  ssh_run (sshClient args) (join (remote_cmd self args op pidFile logFile))
    (Some pidFile) (Some logFile) w2 = (r, w3) ->
  (forall msg, r <> Raise (sshError msg)) ->
  remote_start_run self args op w = (r, w3).
Proof.
  intros Hpid Hlog Hrun Hother.
  destruct op as [targetFile | disk bitMap port]; simpl in *.
  - unfold Util.startRemoteRestoreNbdServer, bind. rewrite Hpid, Hlog.
    unfold try_except_sshError. rewrite Hrun.
    destruct r as [p | []]; try reflexivity. exfalso. exact (Hother _ eq_refl).
  - unfold Util.startRemoteBackupNbdServer, bind. rewrite Hpid, Hlog.
    unfold try_except_sshError. rewrite Hrun.
    destruct r as [p | []]; try reflexivity. exfalso. exact (Hother _ eq_refl).
Qed.

Lemma remote_start_passes_other_results_witness :
  fst (remote_start_run sda (sample_args true ssh_timing_out)
         (RemoteRestore "/restore/vm1.qcow2") (mk_world [] [] [])) =
    Raise (OtherError "timed out")
  /\ logged (snd (remote_start_run sda (sample_args true ssh_timing_out)
                    (RemoteRestore "/restore/vm1.qcow2") (mk_world [] [] []))) = [].
Proof.
  rewrite (remote_start_passes_other_results sda (sample_args true ssh_timing_out)
             (RemoteRestore "/restore/vm1.qcow2") (mk_world [] [] []) _ _ _ _ _
             (Raise (OtherError "timed out")) eq_refl eq_refl eq_refl).
  - split; reflexivity.
  - intros msg. discriminate.
Defined.

(** X8: whatever options are set, a remote argument list names the
    pid-file at position 9, after [--pid-file] and before [--fork], and
    ends with the redirection into the log file.  The restore list reads
    neither bind address nor bitmap: its length is 12, or 15 with TLS;
    the backup list adds two elements for a bind address, one for a
    bitmap and three for TLS. *)
Theorem remote_cmd_shape (self : util) (args : Namespace) (op : remote_start)
    (pidFile logFile : string) :
  nth_error (remote_cmd self args op pidFile logFile) 0 = Some "qemu-nbd"
  /\ nth_error (remote_cmd self args op pidFile logFile) 8 = Some "--pid-file"
  /\ nth_error (remote_cmd self args op pidFile logFile) 9 = Some pidFile
  /\ nth_error (remote_cmd self args op pidFile logFile) 10 = Some "--fork"
  /\ List.last (remote_cmd self args op pidFile logFile) "" = "> " +:+ logFile +:+ " 2>&1"
  /\ length (remote_cmd self args op pidFile logFile) =
     (12
      + match op with
        | RemoteRestore _ => 0
        | RemoteBackup _ bitMap _ =>
            (if decide (nbd_ip args ≠ "") then 2 else 0)
            + (if decide (bitMap ≠ "") then 1 else 0)
        end
      + (if tls args then 3 else 0))%nat.
Proof.
  destruct op as [targetFile | disk bitMap port];
    unfold remote_cmd, Util.startRemoteRestoreNbdServer_cmd,
      Util.startRemoteBackupNbdServer_cmd, Util._addTls;
    repeat match goal with
           | |- context [decide (?a ≠ ?b)] => destruct (decide (a ≠ b))
           end;
    destruct (tls args); repeat split; reflexivity.
Qed.




(** X10: [startNbdkitProcess] hands the local executor the pid-file it
    has just created: the path exists when the executor is called, it is
    the element after [--pidfile] on the command line, and every file
    that existed before is still there. *)
Theorem nbdkit_pidfile_is_the_one_created `{Collaborators} (self : util) (args : Namespace)
    (nbdkitModule blockMap fullImage : string) (w : world) :
  exists pidFile w1,
    pidFile ∈ files w1
    /\ files w ⊆ files w1
    /\ nth_error
         (Util.startNbdkitProcess_cmd self args nbdkitModule blockMap fullImage pidFile) 1 =
       Some "--pidfile"
    /\ nth_error
         (Util.startNbdkitProcess_cmd self args nbdkitModule blockMap fullImage pidFile) 2 =
       Some pidFile
    /\ Util.startNbdkitProcess self args nbdkitModule blockMap fullImage w =
       command_run
         (Util.startNbdkitProcess_cmd self args nbdkitModule blockMap fullImage pidFile)
         (Some pidFile) false w1.
Proof.
  eexists _, _. split; [| split; [| split; [| split; [| reflexivity]]]]; simpl.
  - set_solver.
  - set_solver.
  - reflexivity.
  - reflexivity.
Qed.

(** X11: the verbosity option changes nothing in the nbdkit command but
    its debug parameter: two option sets that agree on listen address,
    listen port, block size and thread count give argument lists that are
    equal at every position other than 17, and position 17 is [debug=1]
    with verbosity and [debug=0] without. *)
Theorem nbdkit_verbose_sets_debug_only (self : util) (args1 args2 : Namespace)
    (nbdkitModule blockMap fullImage pidFile : string) (i : nat) :
  listen_address args1 = listen_address args2 ->
  listen_port args1 = listen_port args2 ->
  blocksize args1 = blocksize args2 ->
  threads args1 = threads args2 ->
  (i <> 17%nat ->
   nth_error (Util.startNbdkitProcess_cmd self args1 nbdkitModule blockMap fullImage pidFile) i =
   nth_error (Util.startNbdkitProcess_cmd self args2 nbdkitModule blockMap fullImage pidFile) i)
  /\ nth_error
       (Util.startNbdkitProcess_cmd self args1 nbdkitModule blockMap fullImage pidFile) 17 =
     Some (if verbose args1 then "debug=1" else "debug=0")
  /\ length (Util.startNbdkitProcess_cmd self args1 nbdkitModule blockMap fullImage pidFile) =
     20%nat.
Proof.
  intros Haddr Hport Hsize Hthreads.
  unfold Util.startNbdkitProcess_cmd. rewrite Haddr, Hport, Hsize, Hthreads.
  split; [| split; [destruct (verbose args1); reflexivity | reflexivity]].
  intros Hne.
  do 17 (destruct i as [| i]; [reflexivity |]).
  destruct i as [| i]; [contradiction |].
  do 2 (destruct i as [| i]; [reflexivity |]).
  destruct i; reflexivity.
Qed.

Lemma nbdkit_verbose_sets_debug_only_witness :
  nth_error
    (Util.startNbdkitProcess_cmd sda (sample_args false ssh_accepting) "plugin.py"
       "/tmp/blockmap" "/backup/vm1.full" "/tmp/nbdkit0.pid") 17 = Some "debug=0"
  /\ nth_error
       (Util.startNbdkitProcess_cmd sda offline_args "plugin.py"
          "/tmp/blockmap" "/backup/vm1.full" "/tmp/nbdkit0.pid") 3 = Some "-i".
Proof.
  destruct (nbdkit_verbose_sets_debug_only sda (sample_args false ssh_accepting) offline_args
              "plugin.py" "/tmp/blockmap" "/backup/vm1.full" "/tmp/nbdkit0.pid" 3
              eq_refl eq_refl eq_refl eq_refl) as (Hsame & Hdebug & _).
  split; [exact Hdebug |].
  rewrite <- Hsame; [reflexivity | discriminate].
Defined.

Lemma string_app_assoc (a b c : string) : (a +:+ b) +:+ c = a +:+ b +:+ c.
Proof.
  induction a as [| x a IH]; [reflexivity |].
  change (String x ((a +:+ b) +:+ c) = String x (a +:+ b +:+ c)).
  rewrite IH. reflexivity.
Qed.

Lemma join_snoc (l : list string) (x : string) :
  l <> [] -> join (l ++ [x]) = join l +:+ " " +:+ x.
Proof.
  unfold join. induction l as [| a l IH]; [contradiction |].
  intros _. destruct l as [| b l]; [reflexivity |].
  change (String.concat " " ((a :: b :: l) ++ [x]))
    with (a +:+ " " +:+ String.concat " " ((b :: l) ++ [x])).
  rewrite IH by discriminate.
  change (String.concat " " (a :: b :: l)) with (a +:+ " " +:+ String.concat " " (b :: l)).
  rewrite !string_app_assoc. reflexivity.
Qed.

(** X12: the command line sent to the remote executor, the argument list
    joined by single spaces, starts with the word qemu-nbd and ends with
    the redirection of both output streams into the log file, whichever
    of bind address, bitmap and TLS are set: everything before the
    redirection is the join of the other elements. *)
Theorem remote_command_line_redirects_last (self : util) (args : Namespace)
    (op : remote_start) (pidFile logFile : string) :
  join (remote_cmd self args op pidFile logFile) =
    join (removelast (remote_cmd self args op pidFile logFile))
    +:+ " > " +:+ logFile +:+ " 2>&1"
  /\ String.prefix "qemu-nbd " (join (remote_cmd self args op pidFile logFile)) = true.
Proof.
  assert (exists front, front <> []
            /\ remote_cmd self args op pidFile logFile =
               front ++ [ "> " +:+ logFile +:+ " 2>&1" ]
            /\ String.prefix "qemu-nbd " (join front +:+ " > " +:+ logFile +:+ " 2>&1") = true)
    as (front & Hne & Hcmd & Hpre).
  { destruct op as [targetFile | disk bitMap port];
      unfold remote_cmd, Util.startRemoteRestoreNbdServer_cmd,
        Util.startRemoteBackupNbdServer_cmd, Util._addTls;
      repeat match goal with
             | |- context [decide (?a ≠ ?b)] => destruct (decide (a ≠ b))
             end;
      destruct (tls args);
      (eexists; split; [| split; [reflexivity |]]; [discriminate | reflexivity]). }
  rewrite Hcmd, removelast_last, join_snoc by exact Hne.
  split; [reflexivity | exact Hpre].
Qed.

Lemma string_app_nil_r (s : string) : s +:+ "" = s.
Proof.
  induction s as [| c s IH]; [reflexivity |].
  change (String c (s +:+ "") = String c s). rewrite IH. reflexivity.
Qed.

Lemma join_app (l1 l2 : list string) :
  l1 <> [] ->
  join (l1 ++ l2) = join l1 +:+ String.concat "" (List.map (String.append " ") l2).
Proof.
  revert l1. induction l2 as [| x l2 IH]; intros l1 Hne.
  - rewrite app_nil_r. symmetry. apply string_app_nil_r.
  - change (l1 ++ x :: l2) with (l1 ++ [x] ++ l2). rewrite app_assoc.
    rewrite IH by (destruct l1; discriminate).
    rewrite join_snoc by exact Hne. rewrite string_app_assoc. f_equal.
    destruct l2 as [| y l2]; [apply string_app_nil_r | reflexivity].
Qed.

(** X13: the command lines that image creation and image information
    send to a remote executor.  For create it is the fixed words with
    format, target and size filled in, followed by every extra format
    option in order, each after one space (nothing at all follows for an
    empty option list); for info it is the fixed words around the target.
    Neither operation names a pid-file or a log file to the remote
    executor. *)
Theorem remote_image_command_lines `{Collaborators} (self : util) (client : sshClientT)
    (targetFile diskFormat : string) (fileSize : Z) (qcowOptions : list string) :
  Util.create targetFile fileSize diskFormat qcowOptions (Some client) =
    ssh_run client
      ("qemu-img create -f " +:+ diskFormat +:+ " " +:+ targetFile +:+ " -o size="
       +:+ str_of_int fileSize
       +:+ String.concat "" (List.map (String.append " ") qcowOptions))
      None None
  /\ Util.info self targetFile (Some client) =
     ssh_run client ("qemu-img info " +:+ targetFile +:+ " --output json --force-share")
       None None.
Proof.
  split; [| reflexivity].
  unfold Util.create. rewrite create_cmd_app, join_app by discriminate.
  f_equal.
  change (join [ "qemu-img"; "create"; "-f"; diskFormat; targetFile; "-o";
                 "size=" +:+ str_of_int fileSize ])
    with ("qemu-img create -f " +:+ diskFormat +:+ " " +:+ targetFile +:+ " -o size="
          +:+ str_of_int fileSize).
  rewrite !string_app_assoc.
  change (("qemu-img create -f " +:+ diskFormat) +:+ ?x)
    with ("qemu-img create -f " +:+ diskFormat +:+ x).
  reflexivity.
Qed.
